(** * Friend binding by invitation code (internal/user/service/bind_friend.go)

    [UserService.BindInvitation] talks to three collaborators: the cache
    client ([s.cache], [s.cache.User]), the database client ([s.db.User]) and
    the logger.  None of them is part of the verified file, so the method is
    embedded as a program over an interface of collaborator calls; a handler
    gives the calls their meaning.  Every statement below quantifies over the
    handler and its world, or evaluates the mocks of bind_friend_test.go. *)

From stdpp Require Import base option strings list gmap.

(** ** Go [error] values

    [fmt.Errorf] without a [%w] verb yields an [*errors.errorString]; with
    [%w] it yields a [*fmt.wrapError] that remembers the wrapped error.  The
    interface value [error] may be nil: it is an [option error] here. *)

Inductive error : Type :=
| errorString (s : string)
| wrapError (msg : string) (err : error).

Definition Error (e : error) : string :=
  match e with
  | errorString s => s
  | wrapError msg _ => msg
  end.

Definition Unwrap (e : error) : option error :=
  match e with
  | errorString _ => None
  | wrapError _ err => Some err
  end.

(** [fmt.Errorf(msg)], a format without verbs. *)
Definition Errorf (msg : string) : error := errorString msg.

(** [fmt.Errorf(prefix + "%w", err)]. *)
Definition Errorf_w (prefix : string) (err : error) : error :=
  wrapError (prefix +:+ Error err) err.

(** [fmt.Sprintf(prefix + "%v", err)] for a non-nil [err]. *)
Definition Sprintf_v (prefix : string) (err : error) : string :=
  prefix +:+ Error err.

#[global] Instance error_eq_dec : EqDecision error.
Proof. solve_decision. Defined.

(** ** Collaborator calls *)

(** dbmodel.FollowRelation, of which the method only sees a pointer that it
    discards. *)
Record FollowRelation : Type := {
  FollowerId : string;
  FollowedId : string;
}.

Inductive Call : Type :=
| IsKeyExist (key : string)
| GetCodeStuIdMappingCache (key : string)
| SetUserFriendCache (stuId friendId : string)
| RemoveCodeStuIdMappingCache (key : string)
| GetRelationByUserId (stuId friendId : string)
| CreateRelation (stuId friendId : string)
| IsFriendNumsConfined (stuId : string)
| logger_Errorf (msg : string).

(** What each call hands back to its caller. *)
Definition Resp (c : Call) : Type :=
  match c with
  | IsKeyExist _ => bool
  | GetCodeStuIdMappingCache _ => string * option error
  | SetUserFriendCache _ _ => option error
  | RemoveCodeStuIdMappingCache _ => option error
  | GetRelationByUserId _ _ => bool * option FollowRelation * option error
  | CreateRelation _ _ => option error
  | IsFriendNumsConfined _ => bool * option error
  | logger_Errorf _ => unit
  end.

#[global] Instance Call_eq_dec : EqDecision Call.
Proof. solve_decision. Defined.

(** ** Programs

    A program returns, performs a call and continues with its answer, or
    starts a goroutine ([go func() { ... }()]) and continues at once.  [T] is
    the type of the goroutine bodies it may start. *)

Inductive Prog (T A : Type) : Type :=
| Ret (a : A)
| Vis (c : Call) (k : Resp c -> Prog T A)
| Go (task : T) (k : Prog T A).

Arguments Ret {T A} a.
Arguments Vis {T A} c k.
Arguments Go {T A} task k.

Fixpoint bind {T A B} (p : Prog T A) (f : A -> Prog T B) : Prog T B :=
  match p with
  | Ret a => f a
  | Vis c k => Vis c (fun r => bind (k r) f)
  | Go task k => Go task (bind k f)
  end.

#[global] Instance Prog_ret T : MRet (Prog T) := fun A a => Ret a.
#[global] Instance Prog_bind T : MBind (Prog T) := fun A B f p => bind p f.

Definition call {T} (c : Call) : Prog T (Resp c) := Vis c Ret.
Definition go {T} (task : T) : Prog T unit := Go task (Ret tt).

(** A goroutine body starts nothing itself. *)
Definition Goroutine : Type := Prog Empty_set unit.

(** ** The method

    The context [s.ctx] that every collaborator receives is left out: the
    method passes it on unchanged and never inspects it. *)

Definition mapKey (code : string) : string := "code_mapping:" +:+ code.

(** The closure started at bind_friend.go:50 (BindInvitation.func1); it
    captures [friendId] and [stuId].  It also assigns to the captured [err],
    which the method does not read again: the method returns the constant
    [nil]. *)
Definition BindInvitation_func1 (stuId friendId : string) : Goroutine :=
  err ← call (SetUserFriendCache friendId stuId);
  match err with
  | Some e => call (logger_Errorf (Sprintf_v "service. SetUserFriendCache: " e))
  | None => mret tt
  end.

Definition BindInvitation (stuId code : string) : Prog Goroutine (option error) :=
  let mapKey := mapKey code in
  exist ← call (IsKeyExist mapKey);
  if negb exist then
    mret (Some (Errorf "service.BindInvitation: Invalid InvitationCode"))
  else
  '(friendId, err) ← call (GetCodeStuIdMappingCache mapKey);
  match err with
  | Some err => mret (Some (Errorf_w "service.GetCodeStuIdMappingCode: " err))
  | None =>
  if decide (friendId = stuId) then
    mret (Some (Errorf "service.BindInvitation: cannot add yourself as friend"))
  else
  '(ok, _, err) ← call (GetRelationByUserId stuId friendId);
  match err with
  | Some err => mret (Some (Errorf_w "service.GetRelationByUserId: " err))
  | None =>
  if ok : bool then
    mret (Some (Errorf "service.BindInvitation: RelationShip Already Exist"))
  else
  err ← call (CreateRelation stuId friendId);
  match err with
  | Some err => mret (Some (Errorf_w "service.CreateRelation: " err))
  | None =>
  go (BindInvitation_func1 stuId friendId);;
  mret None
  end end end.

(** ** Running a program against its collaborators *)

(** A handler answers every call and moves the collaborators' world. *)
Definition Handler (W : Type) : Type := forall c : Call, W -> Resp c * W.

(** One entry of a call log: the call and the answer it got. *)
Record Event : Type := Ev {
  ev_call : Call;
  ev_resp : Resp ev_call;
}.

Definition calls (t : list Event) : list Call := map ev_call t.

Record Outcome (T A W : Type) : Type := {
  result : A;               (* the value returned *)
  world : W;                (* the collaborators' world at the return *)
  trace : list Event;       (* the calls made, in order *)
  spawned : list T;         (* the goroutines started, not yet run *)
}.

Arguments result {T A W} o.
Arguments world {T A W} o.
Arguments trace {T A W} o.
Arguments spawned {T A W} o.

Fixpoint run {T A W} (h : Handler W) (p : Prog T A) (w : W) : Outcome T A W :=
  match p with
  | Ret a => {| result := a; world := w; trace := []; spawned := [] |}
  | Vis c k =>
      let a := h c w in
      let o := run h (k a.1) a.2 in
      {| result := result o; world := world o;
         trace := Ev c a.1 :: trace o; spawned := spawned o |}
  | Go task k =>
      let o := run h k w in
      {| result := result o; world := world o;
         trace := trace o; spawned := task :: spawned o |}
  end.

(** The goroutines a run has started are executed afterwards, one after the
    other, on the world the caller left behind; their calls are logged apart
    from the caller's. *)
Fixpoint run_goroutines {W} (h : Handler W) (gs : list Goroutine) (w : W)
  : list Event * W :=
  match gs with
  | [] => ([], w)
  | g :: gs =>
      let o := run h g w in
      let rest := run_goroutines h gs (world o) in
      (trace o ++ rest.1, rest.2)
  end.

Record Execution (W : Type) : Type := {
  returned : option error;        (* what the caller receives *)
  returned_world : W;             (* the world when the caller receives it *)
  sync_trace : list Event;        (* calls made before returning *)
  async_trace : list Event;       (* calls made by the started goroutines *)
  final_world : W;                (* the world after the goroutines ended *)
}.

Arguments returned {W} e.
Arguments returned_world {W} e.
Arguments sync_trace {W} e.
Arguments async_trace {W} e.
Arguments final_world {W} e.

Definition execute {W} (h : Handler W) (stuId code : string) (w : W)
  : Execution W :=
  let o := run h (BindInvitation stuId code) w in
  let bg := run_goroutines h (spawned o) (world o) in
  {| returned := result o; returned_world := world o;
     sync_trace := trace o; async_trace := bg.1; final_world := bg.2 |}.

(** ** Classifying calls *)

Definition is_cache_read (c : Call) : bool :=
  match c with
  | IsKeyExist _ | GetCodeStuIdMappingCache _ => true
  | _ => false
  end.

Definition is_cache_write (c : Call) : bool :=
  match c with
  | SetUserFriendCache _ _ | RemoveCodeStuIdMappingCache _ => true
  | _ => false
  end.

Definition is_cache_call (c : Call) : bool := is_cache_read c || is_cache_write c.

Definition is_store_call (c : Call) : bool :=
  match c with
  | GetRelationByUserId _ _ | CreateRelation _ _ => true
  | _ => false
  end.

(** Resolving the invitation code to its issuer. *)
Definition is_mapping_resolution (c : Call) : bool :=
  match c with GetCodeStuIdMappingCache _ => true | _ => false end.

Definition is_CreateRelation (c : Call) : bool :=
  match c with CreateRelation _ _ => true | _ => false end.

Definition is_RemoveCodeStuIdMappingCache (c : Call) : bool :=
  match c with RemoveCodeStuIdMappingCache _ => true | _ => false end.

Definition is_IsFriendNumsConfined (c : Call) : bool :=
  match c with IsFriendNumsConfined _ => true | _ => false end.

(** The calls the goroutine makes: the caller never waits for their answers. *)
Definition is_background (c : Call) : bool :=
  match c with
  | SetUserFriendCache _ _ | RemoveCodeStuIdMappingCache _ | logger_Errorf _ => true
  | _ => false
  end.

(** How often a call satisfying [f] occurs in a call log. *)
Definition count (f : Call -> bool) (t : list Event) : nat :=
  length (List.filter f (calls t)).

(** ** The errors of the method, under the names the specification gives them *)

Definition InvalidInvitationCode : error :=
  Errorf "service.BindInvitation: Invalid InvitationCode".
Definition CacheLookupFailed (cause : error) : error :=
  Errorf_w "service.GetCodeStuIdMappingCode: " cause.
Definition SelfBindingNotAllowed : error :=
  Errorf "service.BindInvitation: cannot add yourself as friend".
Definition RelationLookupFailed (cause : error) : error :=
  Errorf_w "service.GetRelationByUserId: " cause.
Definition RelationAlreadyExists : error :=
  Errorf "service.BindInvitation: RelationShip Already Exist".
Definition RelationCreateFailed (cause : error) : error :=
  Errorf_w "service.CreateRelation: " cause.

(** The message bind_friend_test.go expects when a friend list is full. *)
Definition FriendListFull_msg (party : string) : string :=
  "service.BindInvitation :" +:+ party +:+ " friendList is full".

Inductive ErrorKind : Type :=
| KInvalidInvitationCode
| KCacheLookupFailed
| KSelfBindingNotAllowed
| KRelationLookupFailed
| KRelationAlreadyExists
| KFriendListFull
| KRelationCreateFailed.

#[global] Instance ErrorKind_eq_dec : EqDecision ErrorKind.
Proof. solve_decision. Defined.

(** [strings.HasPrefix]. *)
Definition HasPrefix (s prefix : string) : bool := String.prefix prefix s.

(** [strings.Contains]. *)
Fixpoint Contains (s substr : string) : bool :=
  HasPrefix s substr ||
  match s with
  | EmptyString => false
  | String _ s' => Contains s' substr
  end.

(** The kind of an error, read off its message the way a caller of the Go
    code has to. *)
Definition kind_of (e : error) : option ErrorKind :=
  let msg := Error e in
  if String.eqb msg "service.BindInvitation: Invalid InvitationCode"
  then Some KInvalidInvitationCode
  else if HasPrefix msg "service.GetCodeStuIdMappingCode: "
  then Some KCacheLookupFailed
  else if String.eqb msg "service.BindInvitation: cannot add yourself as friend"
  then Some KSelfBindingNotAllowed
  else if HasPrefix msg "service.GetRelationByUserId: "
  then Some KRelationLookupFailed
  else if String.eqb msg "service.BindInvitation: RelationShip Already Exist"
  then Some KRelationAlreadyExists
  else if HasPrefix msg "service.BindInvitation :"
  then Some KFriendListFull
  else if HasPrefix msg "service.CreateRelation: "
  then Some KRelationCreateFailed
  else None.

(** ** The table-driven test of bind_friend_test.go *)

Module Test.

Record testCase : Type := {
  name : string;
  expectingError : bool;
  expectingErrorMsg : string;
  cacheExist : bool;
  cacheGetError : option error;
  cacheFriendId : string;
  dbRelationExist : bool;
  dbRelationError : option error;
  dbCreateError : option error;
  userConfined : bool;
  targetConfined : bool;
  userConfinedError : option error;
  targetConfinedErr : option error;
  goroutineMockCacheExist : bool;
  targetCacheExist : bool;
  goroutineError : bool;
}.

Definition stuId : string := "102300217".
Definition friendId : string := "102300218".
Definition code : string := "ABCDEF".

(** gorm.ErrInvalidData *)
Definition gorm_ErrInvalidData : error := errorString "unsupported data".

Definition cache_not_exist : testCase :=
  {| name := "cache not exist"; expectingError := true;
     expectingErrorMsg := "service.BindInvitation: Invalid InvitationCode";
     cacheExist := false; cacheGetError := None; cacheFriendId := "";
     dbRelationExist := false; dbRelationError := None; dbCreateError := None;
     userConfined := false; targetConfined := false;
     userConfinedError := None; targetConfinedErr := None;
     goroutineMockCacheExist := false; targetCacheExist := false;
     goroutineError := false |}.

Definition cache_get_error : testCase :=
  {| name := "cache get error"; expectingError := true;
     expectingErrorMsg := "service.GetCodeStuIdMappingCode:";
     cacheExist := true;
     cacheGetError := Some (Errorf "internal service error");
     cacheFriendId := "";
     dbRelationExist := false; dbRelationError := None; dbCreateError := None;
     userConfined := false; targetConfined := false;
     userConfinedError := None; targetConfinedErr := None;
     goroutineMockCacheExist := false; targetCacheExist := false;
     goroutineError := false |}.

Definition add_self_as_friend : testCase :=
  {| name := "add self as friend"; expectingError := true;
     expectingErrorMsg := "service.BindInvitation: cannot add yourself as friend";
     cacheExist := true; cacheGetError := None; cacheFriendId := stuId;
     dbRelationExist := false; dbRelationError := None; dbCreateError := None;
     userConfined := false; targetConfined := false;
     userConfinedError := None; targetConfinedErr := None;
     goroutineMockCacheExist := false; targetCacheExist := false;
     goroutineError := false |}.

Definition relation_already_exist : testCase :=
  {| name := "relation already exist"; expectingError := true;
     expectingErrorMsg := "service.BindInvitation: RelationShip Already Exist";
     cacheExist := true; cacheGetError := None; cacheFriendId := friendId;
     dbRelationExist := true; dbRelationError := None; dbCreateError := None;
     userConfined := false; targetConfined := false;
     userConfinedError := None; targetConfinedErr := None;
     goroutineMockCacheExist := false; targetCacheExist := false;
     goroutineError := false |}.

Definition db_relation_check_error : testCase :=
  {| name := "db relation check error"; expectingError := true;
     expectingErrorMsg := "service.GetRelationByUserId:";
     cacheExist := true; cacheGetError := None; cacheFriendId := friendId;
     dbRelationExist := false; dbRelationError := Some gorm_ErrInvalidData;
     dbCreateError := None;
     userConfined := false; targetConfined := false;
     userConfinedError := None; targetConfinedErr := None;
     goroutineMockCacheExist := false; targetCacheExist := false;
     goroutineError := false |}.

Definition user_friend_list_full : testCase :=
  {| name := "user friend list full"; expectingError := true;
     expectingErrorMsg := "service.BindInvitation :102300217 friendList is full";
     cacheExist := true; cacheGetError := None; cacheFriendId := friendId;
     dbRelationExist := false; dbRelationError := None; dbCreateError := None;
     userConfined := true; targetConfined := false;
     userConfinedError := None; targetConfinedErr := None;
     goroutineMockCacheExist := false; targetCacheExist := false;
     goroutineError := false |}.

Definition target_friend_list_full : testCase :=
  {| name := "target friend list full"; expectingError := true;
     expectingErrorMsg := "service.BindInvitation :102300218 friendList is full";
     cacheExist := true; cacheGetError := None; cacheFriendId := friendId;
     dbRelationExist := false; dbRelationError := None; dbCreateError := None;
     userConfined := false; targetConfined := true;
     userConfinedError := None; targetConfinedErr := None;
     goroutineMockCacheExist := false; targetCacheExist := false;
     goroutineError := false |}.

Definition user_confined_check_error : testCase :=
  {| name := "user confined check error"; expectingError := true;
     expectingErrorMsg := "service.IsFriendNumsConfined get user friend cache:";
     cacheExist := true; cacheGetError := None; cacheFriendId := friendId;
     dbRelationExist := false; dbRelationError := None; dbCreateError := None;
     userConfined := false; targetConfined := false;
     userConfinedError :=
       Some (Errorf "service.IsFriendNumsConfined get user friend cache: cache error");
     targetConfinedErr := None;
     goroutineMockCacheExist := false; targetCacheExist := false;
     goroutineError := false |}.

Definition db_create_error : testCase :=
  {| name := "db create error"; expectingError := true;
     expectingErrorMsg := "service.CreateRelation:";
     cacheExist := true; cacheGetError := None; cacheFriendId := friendId;
     dbRelationExist := false; dbRelationError := None;
     dbCreateError := Some gorm_ErrInvalidData;
     userConfined := false; targetConfined := false;
     userConfinedError := None; targetConfinedErr := None;
     goroutineMockCacheExist := false; targetCacheExist := false;
     goroutineError := false |}.

Definition success : testCase :=
  {| name := "success"; expectingError := false; expectingErrorMsg := "";
     cacheExist := true; cacheGetError := None; cacheFriendId := friendId;
     dbRelationExist := false; dbRelationError := None; dbCreateError := None;
     userConfined := false; targetConfined := false;
     userConfinedError := None; targetConfinedErr := None;
     goroutineMockCacheExist := true; targetCacheExist := true;
     goroutineError := false |}.

(** The success case with the goroutine's cache operations failing: the
    field [goroutineError] exists for it, no case of the table sets it. *)
Definition success_goroutine_error : testCase :=
  {| name := "success"; expectingError := false; expectingErrorMsg := "";
     cacheExist := true; cacheGetError := None; cacheFriendId := friendId;
     dbRelationExist := false; dbRelationError := None; dbCreateError := None;
     userConfined := false; targetConfined := false;
     userConfinedError := None; targetConfinedErr := None;
     goroutineMockCacheExist := true; targetCacheExist := true;
     goroutineError := true |}.

(** The case "cache not exist" with a code that would resolve to the
    requester, were it looked up. *)
Definition cache_not_exist_own_code : testCase :=
  {| name := "cache not exist"; expectingError := true;
     expectingErrorMsg := "service.BindInvitation: Invalid InvitationCode";
     cacheExist := false; cacheGetError := None; cacheFriendId := stuId;
     dbRelationExist := false; dbRelationError := None; dbCreateError := None;
     userConfined := false; targetConfined := false;
     userConfinedError := None; targetConfinedErr := None;
     goroutineMockCacheExist := false; targetCacheExist := false;
     goroutineError := false |}.

Definition testCases : list testCase :=
  [ cache_not_exist; cache_get_error; add_self_as_friend;
    relation_already_exist; db_relation_check_error; user_friend_list_full;
    target_friend_list_full; user_confined_check_error; db_create_error;
    success ].

(** The world of the mocks is the buffered channel [goroutineDone]; only the
    patch of [RemoveCodeStuIdMappingCache] sends on it. *)
Definition Chan : Type := list bool.

Definition goroutineDone : Chan := [].

(** The patches of lines 175-231.  The two patches of the goroutine's cache
    operations are installed for the cases that expect no error; the model
    answers them in the same way for the other cases. *)
Definition mock (tc : testCase) : Handler Chan :=
  fun c =>
    match c return Chan -> Resp c * Chan with
    | IsKeyExist key => fun ch =>
        (if expectingError tc then cacheExist tc
         else if HasPrefix key "code_mapping:" then cacheExist tc
         else goroutineMockCacheExist tc, ch)
    | GetCodeStuIdMappingCache _ => fun ch =>
        (match cacheGetError tc with
         | Some e => ("", Some e)
         | None => (cacheFriendId tc, None)
         end, ch)
    | GetRelationByUserId _ _ => fun ch =>
        ((dbRelationExist tc, None, dbRelationError tc), ch)
    | IsFriendNumsConfined stuId => fun ch =>
        (if decide (stuId = "102300217")
         then (userConfined tc, userConfinedError tc)
         else (targetConfined tc, targetConfinedErr tc), ch)
    | CreateRelation _ _ => fun ch => (dbCreateError tc, ch)
    | SetUserFriendCache _ _ => fun ch =>
        (if goroutineError tc then Some (Errorf "cache error") else None, ch)
    | RemoveCodeStuIdMappingCache _ => fun ch =>
        if goroutineError tc then (Some (Errorf "remove cache error"), ch)
        else (None, ch ++ [true])
    | logger_Errorf _ => fun ch => (tt, ch)
    end.

(** [err := userService.BindInvitation(stuId, code)] under the patches. *)
Definition call_under_test (tc : testCase) : Execution Chan :=
  execute (mock tc) stuId code goroutineDone.

(** The assertions of lines 236-243: true when none of them fails. *)
Definition assertions_hold (tc : testCase) : bool :=
  let err := returned (call_under_test tc) in
  if expectingError tc then
    match err with
    | None => false
    | Some e =>
        if String.eqb (expectingErrorMsg tc) "" then true
        else Contains (Error e) (expectingErrorMsg tc)
    end
  else
    match err with
    | None => true
    | Some _ => false
    end.

(** The [select] of lines 245-251 takes its first branch when a value waits
    on [goroutineDone], and otherwise times out. *)
Definition goroutine_signalled (tc : testCase) : bool :=
  match final_world (call_under_test tc) with
  | [] => false
  | _ :: _ => true
  end.

End Test.

(** ** An in-memory double of the collaborators *)

Module InMemory.

(** Modelled from the spec: the cache client (pkg/cache), the database client
    (pkg/db) and [UserService.IsFriendNumsConfined] are not among the
    sources.  This double follows the collaborator contract of section 6:
    CodeCache maps keys to the issuing user, the friend-list cache records
    each user's friends, the relationship store holds directed relations, and
    a user is confined at or over the maximum friend count. *)
Record Store : Type := {
  CodeCache : gmap string string;
  FriendCache : gmap string (list string);
  Relations : list FollowRelation;
  Logged : list string;
}.

Definition redis_Nil : error := errorString "redis: nil".

Definition find_relation (stuId friendId : string) (rs : list FollowRelation)
  : option FollowRelation :=
  List.find (fun r => bool_decide (FollowerId r = stuId ∧ FollowedId r = friendId)) rs.

Definition friends_of (stuId : string) (s : Store) : list string :=
  default [] (FriendCache s !! stuId).

Definition handle (maxFriendNum : nat) : Handler Store :=
  fun c =>
    match c return Store -> Resp c * Store with
    | IsKeyExist key => fun s =>
        (bool_decide (is_Some (CodeCache s !! key)), s)
    | GetCodeStuIdMappingCache key => fun s =>
        (match CodeCache s !! key with
         | Some id => (id, None)
         | None => ("", Some redis_Nil)
         end, s)
    | SetUserFriendCache stuId friendId => fun s =>
        (None,
         {| CodeCache := CodeCache s;
            FriendCache := <[stuId := friendId :: friends_of stuId s]> (FriendCache s);
            Relations := Relations s; Logged := Logged s |})
    | RemoveCodeStuIdMappingCache key => fun s =>
        (None,
         {| CodeCache := delete key (CodeCache s);
            FriendCache := FriendCache s;
            Relations := Relations s; Logged := Logged s |})
    | GetRelationByUserId stuId friendId => fun s =>
        let r := find_relation stuId friendId (Relations s) in
        ((bool_decide (is_Some r), r, None), s)
    | CreateRelation stuId friendId => fun s =>
        (None,
         {| CodeCache := CodeCache s; FriendCache := FriendCache s;
            Relations :=
              Relations s ++ [{| FollowerId := stuId; FollowedId := friendId |}];
            Logged := Logged s |})
    | IsFriendNumsConfined stuId => fun s =>
        ((bool_decide (maxFriendNum ≤ length (friends_of stuId s)), None), s)
    | logger_Errorf msg => fun s =>
        (tt,
         {| CodeCache := CodeCache s; FriendCache := FriendCache s;
            Relations := Relations s; Logged := Logged s ++ [msg] |})
    end.

(** The part of the store that is the cache. *)
Definition cache_of (s : Store) : gmap string string * gmap string (list string) :=
  (CodeCache s, FriendCache s).

(** User 102300218 has issued the code ABCDEF; nobody has friends yet. *)
Definition issued : Store :=
  {| CodeCache := {[ "code_mapping:ABCDEF" := "102300218" ]};
     FriendCache := ∅; Relations := []; Logged := [] |}.

End InMemory.

(** ** The order of the checks, in the words of the specification

    The specification lists the checks as steps that run strictly in order
    and stop at the first failure.  [in_order] is that reading, written
    without reference to the method: a list of steps folded with a short
    circuit.  It is compared with the method further down. *)

Module Ordered.

Inductive Step : Type :=
| KeyExistence
| MappingResolution
| SelfBindingGuard
| DuplicateRelationLookup
| RelationCreation.

#[global] Instance Step_eq_dec : EqDecision Step.
Proof. solve_decision. Defined.

Definition order : list Step :=
  [KeyExistence; MappingResolution; SelfBindingGuard;
   DuplicateRelationLookup; RelationCreation].

(** What the steps hand on: the world, the inviter resolved so far and the
    calls made so far. *)
Record Ctx (W : Type) : Type := {
  at_world : W;
  resolved : string;
  made : list Event;
}.

Arguments at_world {W} c.
Arguments resolved {W} c.
Arguments made {W} c.

Definition start {W} (w : W) : Ctx W :=
  {| at_world := w; resolved := ""; made := [] |}.

(** A step asks its collaborator, if it has one, and fails or passes. *)
Definition perform {W} (h : Handler W) (stuId code : string) (st : Step)
  (c : Ctx W) : Ctx W * option error :=
  match st with
  | KeyExistence =>
      let a := h (IsKeyExist (mapKey code)) (at_world c) in
      ({| at_world := a.2; resolved := resolved c;
          made := made c ++ [Ev (IsKeyExist (mapKey code)) a.1] |},
       if a.1 then None else Some InvalidInvitationCode)
  | MappingResolution =>
      let a := h (GetCodeStuIdMappingCache (mapKey code)) (at_world c) in
      ({| at_world := a.2; resolved := a.1.1;
          made := made c ++ [Ev (GetCodeStuIdMappingCache (mapKey code)) a.1] |},
       CacheLookupFailed <$> a.1.2)
  | SelfBindingGuard =>
      (c, if decide (resolved c = stuId) then Some SelfBindingNotAllowed else None)
  | DuplicateRelationLookup =>
      let a := h (GetRelationByUserId stuId (resolved c)) (at_world c) in
      ({| at_world := a.2; resolved := resolved c;
          made := made c ++ [Ev (GetRelationByUserId stuId (resolved c)) a.1] |},
       match a.1.2 with
       | Some cause => Some (RelationLookupFailed cause)
       | None => if a.1.1.1 then Some RelationAlreadyExists else None
       end)
  | RelationCreation =>
      let a := h (CreateRelation stuId (resolved c)) (at_world c) in
      ({| at_world := a.2; resolved := resolved c;
          made := made c ++ [Ev (CreateRelation stuId (resolved c)) a.1] |},
       RelationCreateFailed <$> a.1)
  end.

(** Run the steps in the order given; the first failure ends the run and is
    reported together with the step that failed. *)
Fixpoint in_order {W} (h : Handler W) (stuId code : string) (steps : list Step)
  (c : Ctx W) : Ctx W * option (Step * error) :=
  match steps with
  | [] => (c, None)
  | st :: rest =>
      let r := perform h stuId code st c in
      match r.2 with
      | Some e => (r.1, Some (st, e))
      | None => in_order h stuId code rest r.1
      end
  end.

(** The step an error kind belongs to; the full-friend-list kind belongs to
    none of the five. *)
Definition step_of_kind (k : ErrorKind) : option Step :=
  match k with
  | KInvalidInvitationCode => Some KeyExistence
  | KCacheLookupFailed => Some MappingResolution
  | KSelfBindingNotAllowed => Some SelfBindingGuard
  | KRelationLookupFailed | KRelationAlreadyExists => Some DuplicateRelationLookup
  | KRelationCreateFailed => Some RelationCreation
  | KFriendListFull => None
  end.

End Ordered.

(** ** Further views of a call log *)

Definition is_IsKeyExist (c : Call) : bool :=
  match c with IsKeyExist _ => true | _ => false end.

Definition is_GetRelationByUserId (c : Call) : bool :=
  match c with GetRelationByUserId _ _ => true | _ => false end.

Definition is_SetUserFriendCache (c : Call) : bool :=
  match c with SetUserFriendCache _ _ => true | _ => false end.

Definition is_logger_Errorf (c : Call) : bool :=
  match c with logger_Errorf _ => true | _ => false end.

(** The [error] among the results of a logged call, nil when the call has
    none or answered nil. *)
Definition resp_error (ev : Event) : option error :=
  match ev with
  | Ev c r =>
      match c return Resp c -> option error with
      | IsKeyExist _ => fun _ => None
      | GetCodeStuIdMappingCache _ => fun r => r.2
      | SetUserFriendCache _ _ => fun r => r
      | RemoveCodeStuIdMappingCache _ => fun r => r
      | GetRelationByUserId _ _ => fun r => r.2
      | CreateRelation _ _ => fun r => r
      | IsFriendNumsConfined _ => fun r => r.2
      | logger_Errorf _ => fun _ => None
      end r
  end.

(** ** Proof steps shared by the properties *)

(** Symbolic execution: answer the pending call from a hypothesis. *)
Ltac answer H := cbn; rewrite H; cbn.

(** Case analysis on what the collaborators answer along the path. *)
Ltac explore h :=
  repeat first
    [ progress cbn
    | match goal with
      | |- context [h ?c ?w] => destruct (h c w) as [? ?] eqn:?
      | |- context [decide (?a = ?b)] => destruct (decide (a = b))
      | x : Resp _ |- _ => progress cbn in x
      | x : (_ * _)%type |- _ => destruct x
      | x : option error |- _ => destruct x
      | x : bool |- _ => destruct x
      end ].

(** Every call of a concrete call list that touches the cache is one of the
    two reads of the code mapping. *)
Ltac only_reads :=
  repeat (constructor;
          [cbn; intros; first [discriminate | left; reflexivity | right; reflexivity] |]);
  constructor.

(** The cache after a chain of calls that each leave it alone. *)
Ltac frame h cache_of Hro :=
  repeat match goal with
         | H : h ?c ?w0 = (_, ?w') |- _ =>
             let F := fresh "F" in
             assert (F : cache_of w' = cache_of w0)
               by (generalize (Hro c w0 eq_refl); rewrite H; exact (fun x => x));
             clear H
         end;
  congruence.

(** * Properties *)

(** ** Running programs *)

Lemma run_Vis {T A W} (h : Handler W) (c : Call) (k : Resp c -> Prog T A) (w : W) :
  run h (Vis c k) w =
  {| result := result (run h (k (h c w).1) (h c w).2);
     world := world (run h (k (h c w).1) (h c w).2);
     trace := Ev c (h c w).1 :: trace (run h (k (h c w).1) (h c w).2);
     spawned := spawned (run h (k (h c w).1) (h c w).2) |}.
Proof. reflexivity. Qed.

Lemma result_run_bind {T A B W} (h : Handler W) (p : Prog T A) (f : A -> Prog T B) (w : W) :
  result (run h (bind p f) w) = result (run h (f (result (run h p w))) (world (run h p w))).
Proof.
  revert w. induction p as [a | c k IH | task k IH]; intros w; simpl.
  - reflexivity.
  - apply IH.
  - apply IH.
Qed.

Lemma trace_run_bind {T A B W} (h : Handler W) (p : Prog T A) (f : A -> Prog T B) (w : W) :
  trace (run h (bind p f) w) =
  trace (run h p w) ++ trace (run h (f (result (run h p w))) (world (run h p w))).
Proof.
  revert w. induction p as [a | c k IH | task k IH]; intros w; simpl.
  - reflexivity.
  - f_equal. apply IH.
  - apply IH.
Qed.

Lemma world_run_bind {T A B W} (h : Handler W) (p : Prog T A) (f : A -> Prog T B) (w : W) :
  world (run h (bind p f) w) = world (run h (f (result (run h p w))) (world (run h p w))).
Proof.
  revert w. induction p as [a | c k IH | task k IH]; intros w; simpl; auto.
Qed.

Lemma spawned_run_bind {T A B W} (h : Handler W) (p : Prog T A) (f : A -> Prog T B) (w : W) :
  spawned (run h (bind p f) w) =
  spawned (run h p w) ++ spawned (run h (f (result (run h p w))) (world (run h p w))).
Proof.
  revert w. induction p as [a | c k IH | task k IH]; intros w; simpl.
  - reflexivity.
  - apply IH.
  - f_equal. apply IH.
Qed.

(** A goroutine body cannot start goroutines. *)
Lemma goroutine_spawns_nothing {W} (h : Handler W) (g : Goroutine) (w : W) :
  spawned (run h g w) = [].
Proof.
  revert w. induction g as [a | c k IH | [] k IH]; intros w; simpl; auto.
Qed.

Lemma count_app (f : Call -> bool) (t1 t2 : list Event) :
  count f (t1 ++ t2) = count f t1 + count f t2.
Proof.
  unfold count, calls. rewrite map_app, List.filter_app, length_app. reflexivity.
Qed.

(** ** Error values *)

Lemma Unwrap_Errorf_w (prefix : string) (cause : error) :
  Unwrap (Errorf_w prefix cause) = Some cause.
Proof. reflexivity. Qed.

Lemma Error_Errorf_w (prefix : string) (cause : error) :
  Error (Errorf_w prefix cause) = prefix +:+ Error cause.
Proof. reflexivity. Qed.

Lemma HasPrefix_app (p s : string) : HasPrefix (p +:+ s) p = true.
Proof.
  unfold HasPrefix. induction p as [| a p IH]; simpl.
  - destruct s; reflexivity.
  - destruct (Ascii.ascii_dec a a) as [_ | Hne]; [exact IH | contradiction].
Qed.

Lemma kind_of_InvalidInvitationCode :
  kind_of InvalidInvitationCode = Some KInvalidInvitationCode.
Proof. reflexivity. Qed.

Lemma kind_of_SelfBindingNotAllowed :
  kind_of SelfBindingNotAllowed = Some KSelfBindingNotAllowed.
Proof. reflexivity. Qed.

Lemma kind_of_RelationAlreadyExists :
  kind_of RelationAlreadyExists = Some KRelationAlreadyExists.
Proof. reflexivity. Qed.

Lemma kind_of_CacheLookupFailed (cause : error) :
  kind_of (CacheLookupFailed cause) = Some KCacheLookupFailed.
Proof. destruct cause as [[|a s] | [|a s] err]; reflexivity. Qed.

Lemma kind_of_RelationLookupFailed (cause : error) :
  kind_of (RelationLookupFailed cause) = Some KRelationLookupFailed.
Proof. destruct cause as [[|a s] | [|a s] err]; reflexivity. Qed.

Lemma kind_of_RelationCreateFailed (cause : error) :
  kind_of (RelationCreateFailed cause) = Some KRelationCreateFailed.
Proof. destruct cause as [[|a s] | [|a s] err]; reflexivity. Qed.

(** ** The synchronous path, scenario by scenario *)

Section Scenarios.

Context {W : Type} (h : Handler W) (stuId code : string).

(** C4: when [IsKeyExist] reports that the derived key is absent, the method
    returns the invalid-invitation-code error; the existence check is the
    only call it ever makes, so the mapping is not resolved, the relationship
    store is neither read nor written, and no goroutine is started. *)
Theorem absent_code_is_rejected (w w1 : W) :
  h (IsKeyExist (mapKey code)) w = (false, w1) ->
  let e := execute h stuId code w in
  returned e = Some InvalidInvitationCode /\
  sync_trace e = [Ev (IsKeyExist (mapKey code)) false] /\
  async_trace e = [] /\
  count is_store_call (sync_trace e ++ async_trace e) = 0 /\
  count is_mapping_resolution (sync_trace e ++ async_trace e) = 0 /\
  final_world e = w1.
Proof.
  intros H e. subst e. unfold execute, BindInvitation. cbn.
  answer H. repeat split; reflexivity.
Qed.

(** C5: when the code exists and resolves to the requester, the method
    returns the self-binding error whatever the relationship store would
    answer; it has called the cache twice and the store not at all. *)
Theorem self_binding_is_rejected (w w1 w2 : W) :
  h (IsKeyExist (mapKey code)) w = (true, w1) ->
  h (GetCodeStuIdMappingCache (mapKey code)) w1 = ((stuId, None), w2) ->
  let e := execute h stuId code w in
  returned e = Some SelfBindingNotAllowed /\
  sync_trace e = [Ev (IsKeyExist (mapKey code)) true;
                  Ev (GetCodeStuIdMappingCache (mapKey code)) (stuId, None)] /\
  async_trace e = [] /\
  count is_store_call (sync_trace e ++ async_trace e) = 0.
Proof.
  intros H1 H2 e. subst e. unfold execute, BindInvitation. cbn.
  answer H1. answer H2.
  destruct (decide (stuId = stuId)) as [_ | Hne]; [| contradiction].
  cbn. repeat split; reflexivity.
Qed.

(** C6: when the code exists, resolves to another user and the store reports
    without error that the relation exists, the method returns the
    relation-already-exists error and [CreateRelation] is not called, neither
    before the return nor afterwards. *)
Theorem existing_relation_is_rejected (w w1 w2 w3 : W) (friendId : string)
  (rel : option FollowRelation) :
  h (IsKeyExist (mapKey code)) w = (true, w1) ->
  h (GetCodeStuIdMappingCache (mapKey code)) w1 = ((friendId, None), w2) ->
  friendId <> stuId ->
  h (GetRelationByUserId stuId friendId) w2 = ((true, rel, None), w3) ->
  let e := execute h stuId code w in
  returned e = Some RelationAlreadyExists /\
  count is_CreateRelation (sync_trace e ++ async_trace e) = 0 /\
  async_trace e = [].
Proof.
  intros H1 H2 Hne H3 e. subst e. unfold execute, BindInvitation. cbn.
  answer H1. answer H2.
  destruct (decide (friendId = stuId)) as [Heq | _]; [contradiction |].
  answer H3. repeat split; reflexivity.
Qed.

(** C3: when the code exists, resolves to another user, no relation exists
    and [CreateRelation] succeeds, the method calls [CreateRelation] exactly
    once, with the requester first and the resolved user second, and returns
    nil while the goroutine it started is still pending: no call of the
    goroutine precedes the return, and the world at the return is the one
    [CreateRelation] left. *)
Theorem success_creates_once_and_returns (w w1 w2 w3 w4 : W) (friendId : string)
  (rel : option FollowRelation) :
  h (IsKeyExist (mapKey code)) w = (true, w1) ->
  h (GetCodeStuIdMappingCache (mapKey code)) w1 = ((friendId, None), w2) ->
  friendId <> stuId ->
  h (GetRelationByUserId stuId friendId) w2 = ((false, rel, None), w3) ->
  h (CreateRelation stuId friendId) w3 = (None, w4) ->
  let o := run h (BindInvitation stuId code) w in
  result o = None /\
  List.filter is_CreateRelation (calls (trace o)) = [CreateRelation stuId friendId] /\
  count is_CreateRelation (trace o) = 1 /\
  count is_CreateRelation (run_goroutines h (spawned o) (world o)).1 = 0 /\
  spawned o = [BindInvitation_func1 stuId friendId] /\
  count is_background (trace o) = 0 /\
  world o = w4.
Proof.
  intros H1 H2 Hne H3 H4 o. subst o. unfold BindInvitation. cbn.
  answer H1. answer H2.
  destruct (decide (friendId = stuId)) as [Heq | _]; [contradiction |].
  answer H3. answer H4.
  destruct (h (SetUserFriendCache friendId stuId) w4) as [[e |] w5];
    repeat split; reflexivity.
Qed.

End Scenarios.

(** ** Every path at once *)

(** The method never asks whether a friend list is full, and never removes
    a code mapping, whatever the collaborators answer. *)
Lemma never_checks_confinement {W} (h : Handler W) (stuId code : string) (w : W) :
  let e := execute h stuId code w in
  count is_IsFriendNumsConfined (sync_trace e ++ async_trace e) = 0.
Proof.
  unfold execute, BindInvitation. explore h; reflexivity.
Qed.

Lemma never_removes_mapping {W} (h : Handler W) (stuId code : string) (w : W) :
  let e := execute h stuId code w in
  count is_RemoveCodeStuIdMappingCache (sync_trace e ++ async_trace e) = 0.
Proof.
  unfold execute, BindInvitation. explore h; reflexivity.
Qed.

(** The caller's part of an execution does not depend on how the handler
    answers the calls only the goroutine makes. *)
Lemma sync_path_ignores_background {W} (h1 h2 : Handler W) (stuId code : string) (w : W) :
  (forall c w', is_background c = false -> h1 c w' = h2 c w') ->
  returned (execute h1 stuId code w) = returned (execute h2 stuId code w) /\
  sync_trace (execute h1 stuId code w) = sync_trace (execute h2 stuId code w) /\
  returned_world (execute h1 stuId code w) = returned_world (execute h2 stuId code w).
Proof.
  intros Hsame. unfold execute, BindInvitation. cbn.
  rewrite <- (Hsame (IsKeyExist (mapKey code)) w eq_refl).
  destruct (h1 (IsKeyExist (mapKey code)) w) as [[] w1]; cbn; [| auto].
  rewrite <- (Hsame (GetCodeStuIdMappingCache (mapKey code)) w1 eq_refl).
  destruct (h1 (GetCodeStuIdMappingCache (mapKey code)) w1)
    as [[friendId [cause |]] w2]; cbn; [auto |].
  destruct (decide (friendId = stuId)); cbn; [auto |].
  rewrite <- (Hsame (GetRelationByUserId stuId friendId) w2 eq_refl).
  destruct (h1 (GetRelationByUserId stuId friendId) w2)
    as [[[[] rel] [cause |]] w3]; cbn; auto.
  rewrite <- (Hsame (CreateRelation stuId friendId) w3 eq_refl).
  destruct (h1 (CreateRelation stuId friendId) w3) as [[cause |] w4]; cbn; auto.
Qed.

(** What the goroutine does: one cache write, and one log line when the
    write fails. *)
Lemma goroutine_calls {W} (h : Handler W) (stuId friendId : string) (w : W) :
  calls (trace (run h (BindInvitation_func1 stuId friendId) w)) =
  SetUserFriendCache friendId stuId ::
  match (h (SetUserFriendCache friendId stuId) w).1 with
  | Some e => [logger_Errorf (Sprintf_v "service. SetUserFriendCache: " e)]
  | None => []
  end.
Proof.
  unfold BindInvitation_func1. cbn.
  destruct (h (SetUserFriendCache friendId stuId) w) as [[e |] w']; reflexivity.
Qed.

(** C7: take two executions whose collaborators answer alike on every call
    the caller makes, with the code present, resolved to another user, no
    relation yet and [CreateRelation] successful; however the goroutine's
    calls are answered in either of them (success in one, failure in the
    other), both return nil, after the same calls; a failed cache write only
    adds a log line to the goroutine's own calls. *)
Theorem return_value_ignores_background {W} (h1 h2 : Handler W) (stuId code : string)
  (w w1 w2 w3 w4 : W) (friendId : string) (rel : option FollowRelation) :
  (forall c w', is_background c = false -> h1 c w' = h2 c w') ->
  h1 (IsKeyExist (mapKey code)) w = (true, w1) ->
  h1 (GetCodeStuIdMappingCache (mapKey code)) w1 = ((friendId, None), w2) ->
  friendId <> stuId ->
  h1 (GetRelationByUserId stuId friendId) w2 = ((false, rel, None), w3) ->
  h1 (CreateRelation stuId friendId) w3 = (None, w4) ->
  let e1 := execute h1 stuId code w in
  let e2 := execute h2 stuId code w in
  returned e1 = None /\ returned e2 = None /\
  sync_trace e1 = sync_trace e2 /\
  returned_world e1 = returned_world e2 /\
  calls (async_trace e1) =
    SetUserFriendCache friendId stuId ::
    match (h1 (SetUserFriendCache friendId stuId) w4).1 with
    | Some e => [logger_Errorf (Sprintf_v "service. SetUserFriendCache: " e)]
    | None => []
    end /\
  calls (async_trace e2) =
    SetUserFriendCache friendId stuId ::
    match (h2 (SetUserFriendCache friendId stuId) w4).1 with
    | Some e => [logger_Errorf (Sprintf_v "service. SetUserFriendCache: " e)]
    | None => []
    end.
Proof.
  intros Hsame H1 H2 Hne H3 H4 e1 e2.
  assert (G1 := H1). rewrite (Hsame (IsKeyExist (mapKey code)) w eq_refl) in G1.
  assert (G2 := H2).
  rewrite (Hsame (GetCodeStuIdMappingCache (mapKey code)) w1 eq_refl) in G2.
  assert (G3 := H3).
  rewrite (Hsame (GetRelationByUserId stuId friendId) w2 eq_refl) in G3.
  assert (G4 := H4). rewrite (Hsame (CreateRelation stuId friendId) w3 eq_refl) in G4.
  subst e1 e2. unfold execute, BindInvitation. cbn.
  answer H1. answer H2. answer G1. answer G2.
  destruct (decide (friendId = stuId)) as [Heq | _]; [contradiction |].
  answer H3. answer H4. answer G3. answer G4.
  repeat split.
  - destruct (h1 (SetUserFriendCache friendId stuId) w4) as [[e |] w5]; reflexivity.
  - destruct (h2 (SetUserFriendCache friendId stuId) w4) as [[e |] w5]; reflexivity.
Qed.

(** C8: an error of a collaborator on the caller's path comes back wrapped,
    and the wrapped error can be unwrapped to the collaborator's own: a
    failed mapping resolution as the cache-lookup error, a failed relation
    lookup as the relation-lookup error, a failed creation as the
    relation-create error; the method returns exactly that error. *)
Theorem collaborator_errors_are_wrapped {W} (h : Handler W) (stuId code : string) (w : W) :
  let e := execute h stuId code w in
  (forall w1 w2 x cause,
     h (IsKeyExist (mapKey code)) w = (true, w1) ->
     h (GetCodeStuIdMappingCache (mapKey code)) w1 = ((x, Some cause), w2) ->
     returned e = Some (CacheLookupFailed cause) /\
     Unwrap (CacheLookupFailed cause) = Some cause /\
     Error (CacheLookupFailed cause) = "service.GetCodeStuIdMappingCode: " +:+ Error cause) /\
  (forall w1 w2 w3 friendId ok rel cause,
     h (IsKeyExist (mapKey code)) w = (true, w1) ->
     h (GetCodeStuIdMappingCache (mapKey code)) w1 = ((friendId, None), w2) ->
     friendId <> stuId ->
     h (GetRelationByUserId stuId friendId) w2 = ((ok, rel, Some cause), w3) ->
     returned e = Some (RelationLookupFailed cause) /\
     Unwrap (RelationLookupFailed cause) = Some cause /\
     Error (RelationLookupFailed cause) = "service.GetRelationByUserId: " +:+ Error cause) /\
  (forall w1 w2 w3 w4 friendId rel cause,
     h (IsKeyExist (mapKey code)) w = (true, w1) ->
     h (GetCodeStuIdMappingCache (mapKey code)) w1 = ((friendId, None), w2) ->
     friendId <> stuId ->
     h (GetRelationByUserId stuId friendId) w2 = ((false, rel, None), w3) ->
     h (CreateRelation stuId friendId) w3 = (Some cause, w4) ->
     returned e = Some (RelationCreateFailed cause) /\
     Unwrap (RelationCreateFailed cause) = Some cause /\
     Error (RelationCreateFailed cause) = "service.CreateRelation: " +:+ Error cause).
Proof.
  intros e. subst e. unfold execute, BindInvitation. split; [| split].
  - intros w1 w2 x cause H1 H2.
    answer H1. answer H2. repeat split.
  - intros w1 w2 w3 friendId ok rel cause H1 H2 Hne H3.
    answer H1. answer H2.
    destruct (decide (friendId = stuId)) as [Heq | _]; [contradiction |].
    answer H3. repeat split.
  - intros w1 w2 w3 w4 friendId rel cause H1 H2 Hne H3 H4.
    answer H1. answer H2.
    destruct (decide (friendId = stuId)) as [Heq | _]; [contradiction |].
    answer H3. answer H4. repeat split.
Qed.

(** C9: the method is the five checks run in the order key existence,
    mapping resolution, self-binding guard, duplicate-relation lookup,
    relation creation, stopping at the first that fails: it returns what the
    ordered run returns, after exactly the calls the ordered run has made up
    to there, so no collaborator is called after a failure and no goroutine
    is started.  A returned error has one kind, the kind of the step that
    failed first; an absent code gives the invalid-invitation-code error also
    when the code would resolve to the requester. *)
Theorem checks_run_in_order {W} (h : Handler W) (stuId code : string) (w : W) :
  let e := execute h stuId code w in
  let r := Ordered.in_order h stuId code Ordered.order (Ordered.start w) in
  returned e = snd <$> r.2 /\
  sync_trace e = Ordered.made r.1 /\
  returned_world e = Ordered.at_world r.1 /\
  (forall st err, r.2 = Some (st, err) ->
     async_trace e = [] /\
     exists k, kind_of err = Some k /\ Ordered.step_of_kind k = Some st) /\
  (forall w1 w2,
     h (IsKeyExist (mapKey code)) w = (false, w1) ->
     h (GetCodeStuIdMappingCache (mapKey code)) w1 = ((stuId, None), w2) ->
     returned e = Some InvalidInvitationCode /\
     calls (sync_trace e) = [IsKeyExist (mapKey code)]).
Proof.
  intros e r. subst e r. unfold execute, BindInvitation, Ordered.order.
  cbn.
  assert (Hkind : forall err k st,
             kind_of err = Some k -> Ordered.step_of_kind k = Some st ->
             exists k, kind_of err = Some k /\ Ordered.step_of_kind k = Some st)
    by eauto.
  destruct (h (IsKeyExist (mapKey code)) w) as [[] w1] eqn:H1; cbn.
  2: { split; [reflexivity |]. split; [reflexivity |]. split; [reflexivity |].
       split.
       - intros st err [= <- <-]. split; [reflexivity |].
         eapply Hkind; [apply kind_of_InvalidInvitationCode | reflexivity].
       - intros w1' w2' _ _. split; reflexivity. }
  destruct (h (GetCodeStuIdMappingCache (mapKey code)) w1)
    as [[friendId [cause |]] w2] eqn:H2; cbn.
  { split; [reflexivity |]. split; [reflexivity |]. split; [reflexivity |].
    split; [| intros; discriminate].
    intros st err [= <- <-]. split; [reflexivity |].
    eapply Hkind; [apply kind_of_CacheLookupFailed | reflexivity]. }
  destruct (decide (friendId = stuId)) as [Heq | Hne]; cbn.
  { split; [reflexivity |]. split; [reflexivity |]. split; [reflexivity |].
    split; [| intros; discriminate].
    intros st err [= <- <-]. split; [reflexivity |].
    eapply Hkind; [apply kind_of_SelfBindingNotAllowed | reflexivity]. }
  destruct (h (GetRelationByUserId stuId friendId) w2)
    as [[[ok rel] [cause |]] w3] eqn:H3; cbn.
  { split; [reflexivity |]. split; [reflexivity |]. split; [reflexivity |].
    split; [| intros; discriminate].
    intros st err [= <- <-]. split; [reflexivity |].
    eapply Hkind; [apply kind_of_RelationLookupFailed | reflexivity]. }
  destruct ok; cbn.
  { split; [reflexivity |]. split; [reflexivity |]. split; [reflexivity |].
    split; [| intros; discriminate].
    intros st err [= <- <-]. split; [reflexivity |].
    eapply Hkind; [apply kind_of_RelationAlreadyExists | reflexivity]. }
  destruct (h (CreateRelation stuId friendId) w3) as [[cause |] w4] eqn:H4; cbn.
  { split; [reflexivity |]. split; [reflexivity |]. split; [reflexivity |].
    split; [| intros; discriminate].
    intros st err [= <- <-]. split; [reflexivity |].
    eapply Hkind; [apply kind_of_RelationCreateFailed | reflexivity]. }
  split; [reflexivity |]. split; [reflexivity |]. split; [reflexivity |].
  split; intros; discriminate.
Qed.

(** C10: before it returns the method touches the cache only through the
    existence check and the mapping resolution, and makes no cache write.
    A cache write happens only in the goroutine, it is [SetUserFriendCache],
    and then the method has returned nil after a [CreateRelation] that
    answered nil.  When the method returns an error no cache write is made at
    all.  Hence, when reads and store calls leave a cache alone, the cache at
    the return is the cache at the call, and on an error so is the cache at
    the very end. *)
Theorem sync_path_leaves_cache_alone {W} (h : Handler W) (stuId code : string) (w : W) :
  let e := execute h stuId code w in
  Forall (fun c => is_cache_call c = true ->
            c = IsKeyExist (mapKey code) \/
            c = GetCodeStuIdMappingCache (mapKey code))
         (calls (sync_trace e)) /\
  count is_cache_write (sync_trace e) = 0 /\
  (forall c, In c (calls (async_trace e)) -> is_cache_write c = true ->
     returned e = None /\
     exists friendId,
       c = SetUserFriendCache friendId stuId /\
       last (sync_trace e) = Some (Ev (CreateRelation stuId friendId) None)) /\
  (forall err, returned e = Some err ->
     async_trace e = [] /\
     count is_cache_write (sync_trace e ++ async_trace e) = 0) /\
  (forall (C : Type) (cache_of : W -> C),
     (forall c w', is_cache_read c || is_store_call c = true ->
                   cache_of (h c w').2 = cache_of w') ->
     cache_of (returned_world e) = cache_of w /\
     (forall err, returned e = Some err -> cache_of (final_world e) = cache_of w)).
Proof.
  intros e. subst e. unfold execute, BindInvitation. cbn.
  destruct (h (IsKeyExist (mapKey code)) w) as [[] w1] eqn:H1; cbn.
  2: { split; [only_reads |]. split; [reflexivity |].
       split; [intros c [] |]. split; [intros err _; split; reflexivity |].
       intros C cache_of Hro. split; [| intros err _]; frame h cache_of Hro. }
  destruct (h (GetCodeStuIdMappingCache (mapKey code)) w1)
    as [[friendId [cause |]] w2] eqn:H2; cbn.
  { split; [only_reads |]. split; [reflexivity |].
    split; [intros c [] |]. split; [intros err _; split; reflexivity |].
    intros C cache_of Hro. split; [| intros err _]; frame h cache_of Hro. }
  destruct (decide (friendId = stuId)) as [Heq | Hne]; cbn.
  { split; [only_reads |]. split; [reflexivity |].
    split; [intros c [] |]. split; [intros err _; split; reflexivity |].
    intros C cache_of Hro. split; [| intros err _]; frame h cache_of Hro. }
  destruct (h (GetRelationByUserId stuId friendId) w2)
    as [[[ok rel] [cause |]] w3] eqn:H3; cbn.
  { split; [only_reads |]. split; [reflexivity |].
    split; [intros c [] |]. split; [intros err _; split; reflexivity |].
    intros C cache_of Hro. split; [| intros err _]; frame h cache_of Hro. }
  destruct ok; cbn.
  { split; [only_reads |]. split; [reflexivity |].
    split; [intros c [] |]. split; [intros err _; split; reflexivity |].
    intros C cache_of Hro. split; [| intros err _]; frame h cache_of Hro. }
  destruct (h (CreateRelation stuId friendId) w3) as [[cause |] w4] eqn:H4; cbn.
  { split; [only_reads |]. split; [reflexivity |].
    split; [intros c [] |]. split; [intros err _; split; reflexivity |].
    intros C cache_of Hro. split; [| intros err _]; frame h cache_of Hro. }
  split; [only_reads |]. split; [reflexivity |].
  split; [| split; [intros err; discriminate |]].
  - intros c Hin Hwrite. split; [reflexivity |]. exists friendId.
    split; [| reflexivity].
    destruct (h (SetUserFriendCache friendId stuId) w4) as [[e |] w5];
      cbn in Hin; destruct Hin as [<- | Hin]; try reflexivity.
    + destruct Hin as [<- | []]. discriminate Hwrite.
    + destruct Hin.
  - intros C cache_of Hro. split; [| intros err; discriminate].
    frame h cache_of Hro.
Qed.

(** ** The test table against the method *)

(** The cases of the table the method satisfies, and those it does not. *)
Lemma test_table_verdicts :
  map (fun tc => (Test.name tc, Test.assertions_hold tc)) Test.testCases =
  [ ("cache not exist", true); ("cache get error", true);
    ("add self as friend", true); ("relation already exist", true);
    ("db relation check error", true); ("user friend list full", false);
    ("target friend list full", false); ("user confined check error", false);
    ("db create error", true); ("success", true) ].
Proof. vm_compute. reflexivity. Qed.

(** C1: the method does not check friend-list capacity.  In the case "user
    friend list full" of the test table the requester is reported confined,
    yet the method returns nil after calling [CreateRelation], and the
    assertion that expects the full-friend-list message naming 102300217
    fails; likewise for "target friend list full" and 102300218.  Whatever
    the collaborators answer, [IsFriendNumsConfined] is never called. *)
Theorem full_friend_list_is_not_checked :
  (let tc := Test.user_friend_list_full in
   let e := Test.call_under_test tc in
   (Test.mock tc (IsFriendNumsConfined Test.stuId) Test.goroutineDone).1 = (true, None) /\
   Test.expectingErrorMsg tc = FriendListFull_msg Test.stuId /\
   returned e = None /\
   calls (sync_trace e) =
     [IsKeyExist "code_mapping:ABCDEF";
      GetCodeStuIdMappingCache "code_mapping:ABCDEF";
      GetRelationByUserId "102300217" "102300218";
      CreateRelation "102300217" "102300218"] /\
   Test.assertions_hold tc = false) /\
  (let tc := Test.target_friend_list_full in
   let e := Test.call_under_test tc in
   (Test.mock tc (IsFriendNumsConfined Test.friendId) Test.goroutineDone).1 = (true, None) /\
   Test.expectingErrorMsg tc = FriendListFull_msg Test.friendId /\
   returned e = None /\
   count is_CreateRelation (sync_trace e) = 1 /\
   Test.assertions_hold tc = false) /\
  (forall (W : Type) (h : Handler W) (stuId code : string) (w : W),
     let e := execute h stuId code w in
     count is_IsFriendNumsConfined (sync_trace e ++ async_trace e) = 0).
Proof.
  split; [| split].
  - vm_compute. repeat split.
  - vm_compute. repeat split.
  - intros W h stuId code w. apply never_checks_confinement.
Qed.

(** C2: the goroutine does not remove the consumed code mapping.  In the
    case "success" of the test table the method returns nil and the goroutine
    only writes the friend cache: [RemoveCodeStuIdMappingCache] is called
    zero times, not once, and nothing is sent on the channel the test waits
    on.  Whatever the collaborators answer, the mapping is never removed. *)
Theorem consumed_code_is_not_removed :
  (let e := Test.call_under_test Test.success in
   returned e = None /\
   calls (async_trace e) = [SetUserFriendCache "102300218" "102300217"] /\
   count is_RemoveCodeStuIdMappingCache (sync_trace e ++ async_trace e) = 0 /\
   Test.goroutine_signalled Test.success = false) /\
  (forall (W : Type) (h : Handler W) (stuId code : string) (w : W),
     let e := execute h stuId code w in
     count is_RemoveCodeStuIdMappingCache (sync_trace e ++ async_trace e) = 0).
Proof.
  split.
  - vm_compute. repeat split.
  - intros W h stuId code w. apply never_removes_mapping.
Qed.

(** On the in-memory double the mapping of a redeemed code is still there
    when the goroutine has ended, and a third user redeems the same code
    again. *)
Lemma code_redeemable_twice_in_memory :
  let e1 := execute (InMemory.handle 50) "102300217" "ABCDEF" InMemory.issued in
  let e2 := execute (InMemory.handle 50) "102300219" "ABCDEF" (final_world e1) in
  returned e1 = None /\
  InMemory.CodeCache (final_world e1) !! "code_mapping:ABCDEF" = Some "102300218" /\
  returned e2 = None /\
  InMemory.Relations (final_world e2) =
    [ {| FollowerId := "102300217"; FollowedId := "102300218" |};
      {| FollowerId := "102300219"; FollowedId := "102300218" |} ].
Proof. vm_compute. repeat split. Qed.

(** ** The scenarios are not vacuous *)

Lemma absent_code_is_rejected_witness :
  let e := Test.call_under_test Test.cache_not_exist in
  returned e = Some InvalidInvitationCode /\
  sync_trace e = [Ev (IsKeyExist (mapKey Test.code)) false] /\
  async_trace e = [] /\
  count is_store_call (sync_trace e ++ async_trace e) = 0 /\
  count is_mapping_resolution (sync_trace e ++ async_trace e) = 0 /\
  final_world e = [].
Proof.
  apply (absent_code_is_rejected (Test.mock Test.cache_not_exist)
           Test.stuId Test.code [] []).
  reflexivity.
Defined.

Lemma self_binding_is_rejected_witness :
  let e := Test.call_under_test Test.add_self_as_friend in
  returned e = Some SelfBindingNotAllowed /\
  sync_trace e = [Ev (IsKeyExist (mapKey Test.code)) true;
                  Ev (GetCodeStuIdMappingCache (mapKey Test.code)) (Test.stuId, None)] /\
  async_trace e = [] /\
  count is_store_call (sync_trace e ++ async_trace e) = 0.
Proof.
  apply (self_binding_is_rejected (Test.mock Test.add_self_as_friend)
           Test.stuId Test.code [] [] []); reflexivity.
Defined.

Lemma existing_relation_is_rejected_witness :
  let e := Test.call_under_test Test.relation_already_exist in
  returned e = Some RelationAlreadyExists /\
  count is_CreateRelation (sync_trace e ++ async_trace e) = 0 /\
  async_trace e = [].
Proof.
  apply (existing_relation_is_rejected (Test.mock Test.relation_already_exist)
           Test.stuId Test.code [] [] [] [] Test.friendId None);
    [reflexivity | reflexivity | discriminate | reflexivity].
Defined.

Lemma success_creates_once_and_returns_witness :
  let o := run (Test.mock Test.success) (BindInvitation Test.stuId Test.code) [] in
  result o = None /\
  List.filter is_CreateRelation (calls (trace o)) =
    [CreateRelation Test.stuId Test.friendId] /\
  count is_CreateRelation (trace o) = 1 /\
  count is_CreateRelation
    (run_goroutines (Test.mock Test.success) (spawned o) (world o)).1 = 0 /\
  spawned o = [BindInvitation_func1 Test.stuId Test.friendId] /\
  count is_background (trace o) = 0 /\
  world o = [].
Proof.
  apply (success_creates_once_and_returns (Test.mock Test.success)
           Test.stuId Test.code [] [] [] [] [] Test.friendId None);
    [reflexivity | reflexivity | discriminate | reflexivity | reflexivity].
Defined.

Lemma mocks_agree_on_callers_calls (c : Call) (ch : Test.Chan) :
  is_background c = false ->
  Test.mock Test.success c ch = Test.mock Test.success_goroutine_error c ch.
Proof. destruct c; intros Hc; try discriminate Hc; reflexivity. Defined.

Lemma return_value_ignores_background_witness :
  let e1 := Test.call_under_test Test.success in
  let e2 := Test.call_under_test Test.success_goroutine_error in
  returned e1 = None /\ returned e2 = None /\
  sync_trace e1 = sync_trace e2 /\
  returned_world e1 = returned_world e2 /\
  calls (async_trace e1) = [SetUserFriendCache Test.friendId Test.stuId] /\
  calls (async_trace e2) =
    [SetUserFriendCache Test.friendId Test.stuId;
     logger_Errorf "service. SetUserFriendCache: cache error"].
Proof.
  apply (return_value_ignores_background
           (Test.mock Test.success) (Test.mock Test.success_goroutine_error)
           Test.stuId Test.code [] [] [] [] [] Test.friendId None);
    [exact mocks_agree_on_callers_calls
    | reflexivity | reflexivity | discriminate | reflexivity | reflexivity].
Defined.

Lemma collaborator_errors_are_wrapped_witness :
  returned (Test.call_under_test Test.cache_get_error) =
    Some (CacheLookupFailed (Errorf "internal service error")) /\
  returned (Test.call_under_test Test.db_relation_check_error) =
    Some (RelationLookupFailed Test.gorm_ErrInvalidData) /\
  returned (Test.call_under_test Test.db_create_error) =
    Some (RelationCreateFailed Test.gorm_ErrInvalidData).
Proof.
  split; [| split].
  - apply (proj1 (collaborator_errors_are_wrapped
                    (Test.mock Test.cache_get_error) Test.stuId Test.code [])
             [] [] "" (Errorf "internal service error"));
      reflexivity.
  - apply (proj1 (proj2 (collaborator_errors_are_wrapped
                    (Test.mock Test.db_relation_check_error) Test.stuId Test.code []))
             [] [] [] Test.friendId false None Test.gorm_ErrInvalidData);
      [reflexivity | reflexivity | discriminate | reflexivity].
  - apply (proj2 (proj2 (collaborator_errors_are_wrapped
                    (Test.mock Test.db_create_error) Test.stuId Test.code []))
             [] [] [] [] Test.friendId None Test.gorm_ErrInvalidData);
      [reflexivity | reflexivity | discriminate | reflexivity | reflexivity].
Defined.

Lemma checks_run_in_order_witness :
  let e := Test.call_under_test Test.cache_not_exist_own_code in
  Test.mock Test.cache_not_exist_own_code (GetCodeStuIdMappingCache (mapKey Test.code)) [] =
    ((Test.stuId, None), []) /\
  returned e = Some InvalidInvitationCode /\
  calls (sync_trace e) = [IsKeyExist (mapKey Test.code)] /\
  (let e' := Test.call_under_test Test.db_create_error in
   async_trace e' = [] /\
   exists k, kind_of (RelationCreateFailed Test.gorm_ErrInvalidData) = Some k /\
             Ordered.step_of_kind k = Some Ordered.RelationCreation).
Proof.
  split; [reflexivity |].
  pose proof (checks_run_in_order (Test.mock Test.cache_not_exist_own_code) Test.stuId Test.code [])
    as (_ & _ & _ & _ & Hex).
  destruct (Hex [] [] eq_refl eq_refl) as [Hret Hcalls].
  split; [exact Hret |]. split; [exact Hcalls |].
  pose proof (checks_run_in_order (Test.mock Test.db_create_error) Test.stuId Test.code [])
    as (_ & _ & _ & Hkind & _).
  exact (Hkind Ordered.RelationCreation
           (RelationCreateFailed Test.gorm_ErrInvalidData) eq_refl).
Defined.

Lemma in_memory_reads_leave_cache (maxFriendNum : nat) (c : Call) (s : InMemory.Store) :
  is_cache_read c || is_store_call c = true ->
  InMemory.cache_of (InMemory.handle maxFriendNum c s).2 = InMemory.cache_of s.
Proof.
  destruct c; intros Hc; try discriminate Hc; try reflexivity.
Defined.

Lemma sync_path_leaves_cache_alone_witness :
  let e := execute (InMemory.handle 50) "102300217" "ABCDEF" InMemory.issued in
  returned e = None /\
  InMemory.cache_of (returned_world e) = InMemory.cache_of InMemory.issued /\
  InMemory.cache_of (final_world e) <> InMemory.cache_of InMemory.issued /\
  (let e' := execute (InMemory.handle 50) "102300218" "ABCDEF" InMemory.issued in
   returned e' = Some SelfBindingNotAllowed /\
   InMemory.cache_of (final_world e') = InMemory.cache_of InMemory.issued).
Proof.
  split; [reflexivity |].
  split.
  - apply (proj1 (proj2 (proj2 (proj2 (proj2
             (sync_path_leaves_cache_alone (InMemory.handle 50)
                "102300217" "ABCDEF" InMemory.issued))))
             _ InMemory.cache_of (in_memory_reads_leave_cache 50))).
  - split; [vm_compute; discriminate |].
    split; [reflexivity |].
    apply (proj2 (proj2 (proj2 (proj2 (proj2
             (sync_path_leaves_cache_alone (InMemory.handle 50)
                "102300218" "ABCDEF" InMemory.issued))))
             _ InMemory.cache_of (in_memory_reads_leave_cache 50))
             SelfBindingNotAllowed).
    reflexivity.
Defined.

(** * Further properties of the method, its goroutine and its test *)

(** ** Call discipline *)

(** X1: one invocation asks each collaborator at most once, so nothing is
    retried: the existence check is made exactly once, every later call at
    most once and only if the call before it in the method was made; the
    caller makes between one and four calls and the goroutine at most two. *)
Theorem each_collaborator_called_at_most_once {W} (h : Handler W)
  (stuId code : string) (w : W) :
  let e := execute h stuId code w in
  let t := sync_trace e ++ async_trace e in
  count is_IsKeyExist t = 1 /\
  count is_logger_Errorf t <= count is_SetUserFriendCache t /\
  count is_SetUserFriendCache t <= count is_CreateRelation t /\
  count is_CreateRelation t <= count is_GetRelationByUserId t /\
  count is_GetRelationByUserId t <= count is_mapping_resolution t /\
  count is_mapping_resolution t <= count is_IsKeyExist t /\
  1 <= length (sync_trace e) <= 4 /\
  length (async_trace e) <= 2.
Proof.
  unfold execute, BindInvitation. explore h; cbn; lia.
Qed.

(** X2: no relation of a user with themselves is ever looked up or created:
    every [GetRelationByUserId] and [CreateRelation] call has the requester
    as its first argument and another user as its second, and every
    [SetUserFriendCache] call has another user first and the requester
    second. *)
Theorem relation_calls_name_requester_and_another (W : Type) (h : Handler W)
  (stuId code : string) (w : W) (a b : string) :
  let e := execute h stuId code w in
  let t := calls (sync_trace e ++ async_trace e) in
  (In (GetRelationByUserId a b) t \/ In (CreateRelation a b) t \/
   In (SetUserFriendCache b a) t) ->
  a = stuId /\ b <> stuId.
Proof.
  unfold execute, BindInvitation.
  explore h; intros Hin; cbn in Hin;
    repeat match goal with
           | H : _ \/ _ |- _ => destruct H
           | H : False |- _ => destruct H
           | H : _ = _ :> Call |- _ => first [discriminate H | injection H as <- <-]
           end;
    split; congruence.
Qed.

(** X3: the relationship store is written only when every check has passed.
    Either [CreateRelation] is not called, and then the method returns an
    error and starts no goroutine; or the caller's calls are exactly the
    existence check answered true, the resolution answered with another user
    and nil, the lookup answered false and nil, and [CreateRelation] for the
    requester and that user, whose answer decides the result: nil for nil,
    the relation-create error around its error otherwise. *)
Theorem store_written_only_after_all_checks {W} (h : Handler W)
  (stuId code : string) (w : W) :
  let e := execute h stuId code w in
  (count is_CreateRelation (sync_trace e ++ async_trace e) = 0 /\
   (exists err, returned e = Some err) /\ async_trace e = []) \/
  (exists (friendId : string) (rel : option FollowRelation) (r : option error),
     friendId <> stuId /\
     sync_trace e =
       [Ev (IsKeyExist (mapKey code)) true;
        Ev (GetCodeStuIdMappingCache (mapKey code)) (friendId, None);
        Ev (GetRelationByUserId stuId friendId) (false, rel, None);
        Ev (CreateRelation stuId friendId) r] /\
     returned e = RelationCreateFailed <$> r).
Proof.
  unfold execute, BindInvitation. cbn.
  destruct (h (IsKeyExist (mapKey code)) w) as [[] w1]; cbn; [| left; eauto].
  destruct (h (GetCodeStuIdMappingCache (mapKey code)) w1)
    as [[friendId [cause |]] w2]; cbn; [left; eauto |].
  destruct (decide (friendId = stuId)) as [Heq | Hne]; cbn; [left; eauto |].
  destruct (h (GetRelationByUserId stuId friendId) w2)
    as [[[[] rel] [cause |]] w3]; cbn; try (left; eauto; fail).
  right. exists friendId, rel.
  destruct (h (CreateRelation stuId friendId) w3) as [[cause |] w4]; cbn.
  - exists (Some cause). auto.
  - exists None. auto.
Qed.

(** ** The goroutine *)

(** X4: a goroutine runs exactly when the method returns nil.  It then makes
    one attempt to write the friend cache, for the user [CreateRelation] was
    called with and the requester, in that order; a failed write is followed
    by one log line carrying the error's message and is not repeated, a
    successful one by nothing.  When the method returns an error nothing
    happens after the return. *)
Theorem goroutine_runs_iff_nil_and_writes_once {W} (h : Handler W)
  (stuId code : string) (w : W) :
  let e := execute h stuId code w in
  match returned e with
  | Some _ => async_trace e = [] /\ final_world e = returned_world e
  | None =>
      exists (friendId : string) (a : option error),
        last (sync_trace e) = Some (Ev (CreateRelation stuId friendId) None) /\
        async_trace e =
          Ev (SetUserFriendCache friendId stuId) a ::
          match a with
          | Some cause =>
              [Ev (logger_Errorf ("service. SetUserFriendCache: " +:+ Error cause)) tt]
          | None => []
          end
  end.
Proof.
  unfold execute, BindInvitation. cbn.
  destruct (h (IsKeyExist (mapKey code)) w) as [[] w1]; cbn; [| auto].
  destruct (h (GetCodeStuIdMappingCache (mapKey code)) w1)
    as [[friendId [cause |]] w2]; cbn; [auto |].
  destruct (decide (friendId = stuId)) as [Heq | Hne]; cbn; [auto |].
  destruct (h (GetRelationByUserId stuId friendId) w2)
    as [[[[] rel] [cause |]] w3]; cbn; auto.
  destruct (h (CreateRelation stuId friendId) w3) as [[cause |] w4]; cbn; [auto |].
  exists friendId.
  destruct (h (SetUserFriendCache friendId stuId) w4) as [[cause |] w5] eqn:H5; cbn.
  - exists (Some cause). split; [reflexivity |].
    destruct (h (logger_Errorf (Sprintf_v "service. SetUserFriendCache: " cause)) w5)
      as [[] w6]. reflexivity.
  - exists None. split; reflexivity.
Qed.

Lemma relation_calls_name_requester_and_another_witness :
  In (CreateRelation Test.stuId Test.friendId)
     (calls (sync_trace (Test.call_under_test Test.success) ++
             async_trace (Test.call_under_test Test.success))) /\
  Test.stuId = Test.stuId /\ Test.friendId <> Test.stuId.
Proof.
  assert (Hin : In (CreateRelation Test.stuId Test.friendId)
                  (calls (sync_trace (Test.call_under_test Test.success) ++
                          async_trace (Test.call_under_test Test.success)))).
  { cbn. right. right. right. left. reflexivity. }
  split; [exact Hin |].
  exact (relation_calls_name_requester_and_another Test.Chan
           (Test.mock Test.success) Test.stuId Test.code Test.goroutineDone
           Test.stuId Test.friendId (or_intror (or_introl Hin))).
Defined.

(** ** The cache key *)

(** X5: the key derived from a code starts with the tag the test's mock looks
    for, and two codes have the same key only if they are the same code. *)
Theorem mapKey_tagged_and_injective (code1 code2 : string) :
  HasPrefix (mapKey code1) "code_mapping:" = true /\
  String.eqb (mapKey code1) (mapKey code2) = String.eqb code1 code2.
Proof.
  split.
  - apply HasPrefix_app.
  - destruct (String.eqb_spec code1 code2) as [-> | Hne].
    + apply String.eqb_refl.
    + apply String.eqb_neq. intros Heq. apply Hne.
      unfold mapKey in Heq. exact (String.app_inj _ _ _ Heq).
Qed.

(** ** The relationship store *)

(** X6: a call that does not reach [CreateRelation] leaves the relationship
    store as it was.  For every view of the world that the cache reads and
    [GetRelationByUserId] leave alone: when [CreateRelation] is not called,
    the view is the same at the return and at the very end as at the call. *)
Theorem store_untouched_without_CreateRelation (W : Type) (h : Handler W)
  (stuId code : string) (w : W) (D : Type) (db_of : W -> D) :
  (forall c w', is_cache_read c || is_GetRelationByUserId c = true ->
                db_of (h c w').2 = db_of w') ->
  let e := execute h stuId code w in
  count is_CreateRelation (sync_trace e) = 0 ->
  db_of (returned_world e) = db_of w /\ db_of (final_world e) = db_of w.
Proof.
  intros Hro. unfold execute, BindInvitation. cbn.
  destruct (h (IsKeyExist (mapKey code)) w) as [[] w1] eqn:H1; cbn.
  2: { intros _. split; frame h db_of Hro. }
  destruct (h (GetCodeStuIdMappingCache (mapKey code)) w1)
    as [[friendId [cause |]] w2] eqn:H2; cbn.
  { intros _. split; frame h db_of Hro. }
  destruct (decide (friendId = stuId)) as [Heq | Hne]; cbn.
  { intros _. split; frame h db_of Hro. }
  destruct (h (GetRelationByUserId stuId friendId) w2)
    as [[[[] rel] [cause |]] w3] eqn:H3; cbn;
    try (intros _; split; frame h db_of Hro).
  destruct (h (CreateRelation stuId friendId) w3) as [[cause |] w4]; cbn;
    discriminate.
Qed.

Lemma in_memory_reads_leave_store (maxFriendNum : nat) (c : Call) (s : InMemory.Store) :
  is_cache_read c || is_GetRelationByUserId c = true ->
  InMemory.Relations (InMemory.handle maxFriendNum c s).2 = InMemory.Relations s.
Proof.
  destruct c; intros Hc; try discriminate Hc; reflexivity.
Defined.

Lemma store_untouched_without_CreateRelation_witness :
  let e := execute (InMemory.handle 50) "102300218" "ABCDEF" InMemory.issued in
  returned e = Some SelfBindingNotAllowed /\
  InMemory.Relations (returned_world e) = InMemory.Relations InMemory.issued /\
  InMemory.Relations (final_world e) = InMemory.Relations InMemory.issued.
Proof.
  split; [vm_compute; reflexivity |].
  apply (store_untouched_without_CreateRelation InMemory.Store (InMemory.handle 50)
           "102300218" "ABCDEF" InMemory.issued _ InMemory.Relations
           (in_memory_reads_leave_store 50)).
  vm_compute. reflexivity.
Defined.

(** ** Which error comes back *)

(** X7: the method returns a wrapping error exactly when the last call it
    made answered with an error, and it wraps that very error; an error that
    wraps nothing is one of the method's own three.  So a caller who unwraps
    the result finds the failure of the collaborator the method stopped at,
    and never an error of an earlier call. *)
Theorem wrapped_cause_is_last_answer {W} (h : Handler W) (stuId code : string) (w : W) :
  let e := execute h stuId code w in
  (forall ev cause,
     last (sync_trace e) = Some ev -> resp_error ev = Some cause ->
     exists err, returned e = Some err /\ Unwrap err = Some cause) /\
  (forall err,
     returned e = Some err ->
     match Unwrap err with
     | Some cause =>
         exists ev, last (sync_trace e) = Some ev /\ resp_error ev = Some cause
     | None =>
         err = InvalidInvitationCode \/ err = SelfBindingNotAllowed \/
         err = RelationAlreadyExists
     end).
Proof.
  unfold execute, BindInvitation. cbn.
  destruct (h (IsKeyExist (mapKey code)) w) as [[] w1]; cbn.
  2: { split.
       - intros ev cause [= <-]; discriminate.
       - intros err [= <-]. cbn. auto. }
  destruct (h (GetCodeStuIdMappingCache (mapKey code)) w1)
    as [[friendId [cause |]] w2]; cbn.
  { split.
    - intros ev c [= <-] [= <-]. eauto.
    - intros err [= <-]. cbn. eauto. }
  destruct (decide (friendId = stuId)) as [Heq | Hne]; cbn.
  { split.
    - intros ev c [= <-]; discriminate.
    - intros err [= <-]. cbn. auto. }
  destruct (h (GetRelationByUserId stuId friendId) w2)
    as [[[ok rel] [cause |]] w3]; cbn.
  { split.
    - intros ev c [= <-] [= <-]. eauto.
    - intros err [= <-]. cbn. eauto. }
  destruct ok; cbn.
  { split.
    - intros ev c [= <-]; discriminate.
    - intros err [= <-]. cbn. auto. }
  destruct (h (CreateRelation stuId friendId) w3) as [[cause |] w4]; cbn.
  { split.
    - intros ev c [= <-] [= <-]. eauto.
    - intros err [= <-]. cbn. eauto. }
  split.
  - intros ev c [= <-]; discriminate.
  - intros err; discriminate.
Qed.

Lemma wrapped_cause_is_last_answer_witness :
  let e := Test.call_under_test Test.db_create_error in
  last (sync_trace e) =
    Some (Ev (CreateRelation Test.stuId Test.friendId) (Some Test.gorm_ErrInvalidData)) /\
  (exists err, returned e = Some err /\ Unwrap err = Some Test.gorm_ErrInvalidData) /\
  (exists ev, last (sync_trace e) = Some ev /\
              resp_error ev = Some Test.gorm_ErrInvalidData).
Proof.
  split; [reflexivity |].
  split.
  - exact (proj1 (wrapped_cause_is_last_answer (Test.mock Test.db_create_error)
                    Test.stuId Test.code Test.goroutineDone)
             (Ev (CreateRelation Test.stuId Test.friendId) (Some Test.gorm_ErrInvalidData))
             Test.gorm_ErrInvalidData eq_refl eq_refl).
  - exact (proj2 (wrapped_cause_is_last_answer (Test.mock Test.db_create_error)
                    Test.stuId Test.code Test.goroutineDone)
             (RelationCreateFailed Test.gorm_ErrInvalidData) eq_refl).
Defined.

(** ** The test *)

(** X8: under the patches of the test the call under test is decided by six
    fields of the case.  Two cases that agree on [cacheExist],
    [cacheGetError], [cacheFriendId], [dbRelationExist], [dbRelationError]
    and [dbCreateError] get the same result after the same calls with the
    same answers, whatever their confinement fields and whether or not they
    expect an error: the patch of [IsKeyExist] answers [cacheExist] either
    way, because the key carries the tag. *)
Theorem test_outcome_decided_by_six_fields (tc1 tc2 : Test.testCase) :
  Test.cacheExist tc1 = Test.cacheExist tc2 ->
  Test.cacheGetError tc1 = Test.cacheGetError tc2 ->
  Test.cacheFriendId tc1 = Test.cacheFriendId tc2 ->
  Test.dbRelationExist tc1 = Test.dbRelationExist tc2 ->
  Test.dbRelationError tc1 = Test.dbRelationError tc2 ->
  Test.dbCreateError tc1 = Test.dbCreateError tc2 ->
  returned (Test.call_under_test tc1) = returned (Test.call_under_test tc2) /\
  sync_trace (Test.call_under_test tc1) = sync_trace (Test.call_under_test tc2).
Proof.
  destruct tc1 as [n1 ee1 em1 ce1 cg1 cf1 re1 rr1 cr1 uc1 tc1 ue1 te1 gm1 tx1 ge1].
  destruct tc2 as [n2 ee2 em2 ce2 cg2 cf2 re2 rr2 cr2 uc2 tc2 ue2 te2 gm2 tx2 ge2].
  cbn. intros <- <- <- <- <- <-.
  assert (HP : HasPrefix (mapKey Test.code) "code_mapping:" = true)
    by apply HasPrefix_app.
  unfold Test.call_under_test, execute, BindInvitation. cbn.
  destruct ee1, ee2, ce1; cbn; rewrite ?HP; cbn; auto;
    destruct cg1 as [cause1 |]; cbn; auto;
    destruct (decide (cf1 = Test.stuId)); cbn; auto;
    destruct rr1 as [cause2 |]; cbn; auto;
    destruct re1; cbn; auto;
    destruct cr1 as [cause3 |]; cbn; auto.
Qed.

Lemma test_outcome_decided_by_six_fields_witness :
  returned (Test.call_under_test Test.user_friend_list_full) =
    returned (Test.call_under_test Test.success) /\
  sync_trace (Test.call_under_test Test.user_friend_list_full) =
    sync_trace (Test.call_under_test Test.success).
Proof.
  apply (test_outcome_decided_by_six_fields Test.user_friend_list_full Test.success);
    reflexivity.
Defined.

(** X9: whatever the case, nothing is ever sent on [goroutineDone]: the
    channel is as empty after the goroutine as before the call, so the
    [select] of the test cannot take its first branch. *)
Theorem test_never_signalled (tc : Test.testCase) :
  final_world (Test.call_under_test tc) = Test.goroutineDone /\
  Test.goroutine_signalled tc = false.
Proof.
  assert (H : final_world (Test.call_under_test tc) = Test.goroutineDone).
  { assert (HP : HasPrefix (mapKey Test.code) "code_mapping:" = true)
      by apply HasPrefix_app.
    unfold Test.call_under_test, execute, BindInvitation. cbn. rewrite HP.
    destruct (if Test.expectingError tc then Test.cacheExist tc
              else Test.cacheExist tc); cbn; [| reflexivity].
    destruct (Test.cacheGetError tc) as [cause1 |]; cbn; [reflexivity |].
    destruct (decide (Test.cacheFriendId tc = Test.stuId)); cbn; [reflexivity |].
    destruct (Test.dbRelationError tc) as [cause2 |]; cbn; [reflexivity |].
    destruct (Test.dbRelationExist tc); cbn; [reflexivity |].
    destruct (Test.dbCreateError tc) as [cause3 |]; cbn; [reflexivity |].
    destruct (Test.goroutineError tc); reflexivity. }
  split; [exact H |]. unfold Test.goroutine_signalled. rewrite H. reflexivity.
Qed.

(** X10: a case of the table that expects no error passes exactly when its
    mocks let every check through: the code exists, resolves without error
    to a user other than 102300217, the lookup finds no relation and reports
    no error, and the creation reports no error.  No other field of the case
    matters. *)
Theorem test_expecting_success_passes_iff (tc : Test.testCase) :
  Test.expectingError tc = false ->
  Test.assertions_hold tc =
    Test.cacheExist tc &&
    bool_decide (Test.cacheGetError tc = None) &&
    negb (bool_decide (Test.cacheFriendId tc = Test.stuId)) &&
    negb (Test.dbRelationExist tc) &&
    bool_decide (Test.dbRelationError tc = None) &&
    bool_decide (Test.dbCreateError tc = None).
Proof.
  intros Hexp.
  assert (HP : HasPrefix (mapKey Test.code) "code_mapping:" = true)
    by apply HasPrefix_app.
  unfold Test.assertions_hold, Test.call_under_test, execute, BindInvitation.
  rewrite Hexp. cbn. rewrite Hexp, HP.
  destruct (Test.cacheExist tc); cbn; [| reflexivity].
  destruct (Test.cacheGetError tc) as [cause1 |]; cbn; [reflexivity |].
  destruct (decide (Test.cacheFriendId tc = Test.stuId)) as [Heq | Hne]; cbn.
  { rewrite (bool_decide_eq_true_2 _ Heq). reflexivity. }
  rewrite (bool_decide_eq_false_2 _ Hne). cbn.
  destruct (Test.dbRelationError tc) as [cause2 |]; cbn.
  { destruct (Test.dbRelationExist tc); reflexivity. }
  destruct (Test.dbRelationExist tc); cbn; [reflexivity |].
  destruct (Test.dbCreateError tc) as [cause3 |]; reflexivity.
Qed.

Lemma test_expecting_success_passes_iff_witness :
  Test.expectingError Test.success = false /\
  Test.assertions_hold Test.success = true.
Proof.
  split; [reflexivity |].
  exact (test_expecting_success_passes_iff Test.success eq_refl).
Defined.
